(** * Verification of the PDF banner replacer (src/main.py)

    Shallow embedding of the page-splice core of the bot:
    - [fit_image]: the fit-and-center computation of
      [create_banner_pdf_from_image] (lines 134-140);
    - [create_banner_pdf_from_image]: the reportlab/Pillow renderer;
    - [extract_first_page_size]: the MediaBox reading of
      [replace_first_page_with_banner] (lines 153-161);
    - [replace_first_page_with_banner]: the whole splice, over a file
      system held in a [gmap] and threaded through a state/error monad;
    - the path computations [banner_path_for_chat] and friends.

    Python floats are modelled by exact rationals [Q], except in
    [fit_image_f], the fitter in IEEE doubles ([PrimFloat.float]), used
    where rounding matters. Python exceptions are the [Err] results of the
    monad; a file written before an exception stays in the file system,
    as on disk.

    The renderer never completes: line 146 hands reportlab's [drawImage]
    an [io.BytesIO] buffer, which reportlab takes for a file name, and
    [os.path.splitext] raises [TypeError] on it. Every run of the renderer,
    of the splice and of the PDF handler that reaches that line ends in
    that exception. *)

From Stdlib Require Import QArith Qabs Qround Qminmax Lqa ZArith String Ascii Bool List.
From stdpp Require Import base gmap strings pretty list.
From Stdlib Require PrimFloat SpecFloat FloatOps.
Import PrimFloat.PrimFloatNotations.

Open Scope Q_scope.

(** ** Python values and errors *)

Inductive py_error :=
| ValueError (msg : string)
| ZeroDivisionError
| FileNotFoundError (path : string)
| PdfError (path : string)              (* pikepdf cannot parse the file *)
| UnidentifiedImageError (path : string) (* PIL cannot decode the file *)
| TypeError (msg : string)
| OverflowError (msg : string).

Inductive res (A : Type) :=
| Ok (a : A)
| Err (e : py_error).
Arguments Ok {A} a.
Arguments Err {A} e.

(** [a / b] on Python numbers: raises on a zero divisor. *)
Definition py_div (a b : Q) : res Q :=
  if Qeq_bool b 0 then Err ZeroDivisionError else Ok (a / b).

(** Python's [min(a, b)]: the first argument unless the second is
    strictly smaller. *)
Definition py_min (a b : Q) : Q :=
  if Qlt_le_dec b a then b else a.

(** Python's [int(x)] on a float: truncation toward zero. *)
Definition py_int (x : Q) : Z :=
  if Qle_bool 0 x then Qfloor x else (- Qfloor (- x))%Z.

Definition res_bind {A B} (r : res A) (k : A -> res B) : res B :=
  match r with Ok a => k a | Err e => Err e end.

(** ** Image fitter (lines 136-140 of [create_banner_pdf_from_image]) *)

Record fit_result := {
  ratio : Q;
  new_w : Q;
  new_h : Q;
  off_x : Q;
  off_y : Q
}.

(** [iw, ih = img.size] are Python ints; [width_pt], [height_pt] floats.
    {v
    ratio = min(width_pt / iw, height_pt / ih)
    new_w = iw * ratio
    new_h = ih * ratio
    x = (width_pt - new_w) / 2
    y = (height_pt - new_h) / 2
    v} *)
Definition fit_image (iw ih : Z) (width_pt height_pt : Q) : res fit_result :=
  res_bind (py_div width_pt (inject_Z iw)) (fun rw =>
  res_bind (py_div height_pt (inject_Z ih)) (fun rh =>
  let r := py_min rw rh in
  let w := inject_Z iw * r in
  let h := inject_Z ih * r in
  Ok {| ratio := r; new_w := w; new_h := h;
        off_x := (width_pt - w) / 2; off_y := (height_pt - h) / 2 |})).

(** ** The same fitter in IEEE doubles

    Python evaluates lines 136-140 in floats, IEEE-754 binary64: Rocq's
    primitive [PrimFloat.float], whose operations round as the hardware
    does. [fit_image] above is the same computation in exact arithmetic. *)

(** [float(n)] for a Python int [n]: rounded to the nearest double. *)
Definition float_of_Z (z : Z) : PrimFloat.float :=
  FloatOps.SF2Prim (SpecFloat.binary_normalize FloatOps.prec FloatOps.emax z 0%Z false).

(** [a / b] on Python floats: raises on a zero divisor. *)
Definition py_fdiv (a b : PrimFloat.float) : res PrimFloat.float :=
  if PrimFloat.eqb b PrimFloat.zero then Err ZeroDivisionError else Ok (a / b)%float.

(** Python's [min(a, b)] on floats. *)
Definition py_fmin (a b : PrimFloat.float) : PrimFloat.float :=
  if PrimFloat.ltb b a then b else a.

Record fit_result_f := {
  fratio : PrimFloat.float;
  fnew_w : PrimFloat.float;
  fnew_h : PrimFloat.float;
  foff_x : PrimFloat.float;
  foff_y : PrimFloat.float
}.

(** [width_pt / iw] converts the int [iw] to a float, as does [iw * ratio]. *)
Definition fit_image_f (iw ih : Z) (width_pt height_pt : PrimFloat.float) : res fit_result_f :=
  res_bind (py_fdiv width_pt (float_of_Z iw)) (fun rw =>
  res_bind (py_fdiv height_pt (float_of_Z ih)) (fun rh =>
  let r := py_fmin rw rh in
  let w := (float_of_Z iw * r)%float in
  let h := (float_of_Z ih * r)%float in
  Ok {| fratio := r; fnew_w := w; fnew_h := h;
        foff_x := ((width_pt - w) / PrimFloat.two)%float;
        foff_y := ((height_pt - h) / PrimFloat.two)%float |})).

(** [float(x)] of a number read exactly from the PDF: the quotient of two
    doubles, the nearest double when numerator and denominator are below
    2^53 (as for every integer or short decimal coordinate). *)
Definition float_of_Q (q : Q) : PrimFloat.float :=
  (float_of_Z (Qnum q) / float_of_Z (Zpos (Qden q)))%float.

(** Python's [int(x)] on a float: truncation toward zero; infinities and
    NaN raise. *)
Definition py_int_f (x : PrimFloat.float) : res Z :=
  match FloatOps.Prim2SF x with
  | SpecFloat.S754_zero _ => Ok 0%Z
  | SpecFloat.S754_finite sgn m e =>
      let z := if (0 <=? e)%Z then Z.shiftl (Zpos m) e else Z.shiftr (Zpos m) (- e) in
      Ok (if sgn then (- z)%Z else z)
  | SpecFloat.S754_infinity _ => Err (OverflowError "cannot convert float infinity to integer")
  | SpecFloat.S754_nan => Err (ValueError "cannot convert float NaN to integer")
  end.

(** ** Documents, images and the file system *)

(** A page's content stream: either operators the renderer emitted, or the
    raw bytes of a page read from an existing PDF (copied, never parsed). *)
Inductive page_op :=
| DrawImage (img_w img_h : Z) (x y w h : PrimFloat.float)
| RawContent (bytes : list Byte.byte).

Record page := {
  MediaBox : list Q;            (* [llx, lly, urx, ury] *)
  contents : list page_op
}.

(** A pikepdf document: its page list. *)
Abbreviation pdf := (list page).

(** A decoded PIL image: mode and pixel size (pixels are not modelled). *)
Record image := {
  img_mode : string;
  img_size_w : Z;
  img_size_h : Z
}.

Inductive file :=
| PdfFile (pages : pdf)
| ImageFile (img : image)
| OtherFile (bytes : list Byte.byte).

Abbreviation fs := (gmap string file).

(** The state/error monad: a Python computation that reads and writes
    files and may raise. *)
Definition M (A : Type) := fs -> res A * fs.

Definition ret {A} (a : A) : M A := fun s => (Ok a, s).
Definition raise {A} (e : py_error) : M A := fun s => (Err e, s).
Definition bind {A B} (m : M A) (k : A -> M B) : M B :=
  fun s => match m s with
           | (Ok a, s') => k a s'
           | (Err e, s') => (Err e, s')
           end.
Definition lift {A} (r : res A) : M A :=
  match r with Ok a => ret a | Err e => raise e end.

Notation "'let*' x := m 'in' k" := (bind m (fun x => k))
  (at level 200, x name, m at level 100, right associativity).

(** [pikepdf.Pdf.open(path)]. *)
Definition pdf_open (path : string) : M pdf :=
  fun s => match s !! path with
           | Some (PdfFile p) => (Ok p, s)
           | Some _ => (Err (PdfError path), s)
           | None => (Err (FileNotFoundError path), s)
           end.

(** [PIL.Image.open(path)]. *)
Definition image_open (path : string) : M image :=
  fun s => match s !! path with
           | Some (ImageFile i) => (Ok i, s)
           | Some _ => (Err (UnidentifiedImageError path), s)
           | None => (Err (FileNotFoundError path), s)
           end.

(** Writing a file ([canvas.save], [Pdf.save]). *)
Definition write_file (path : string) (f : file) : M unit :=
  fun s => (Ok tt, <[path := f]> s).

(** ** Pillow *)

(** [img.convert("RGBA")]. *)
Definition convert (i : image) (mode : string) : image :=
  {| img_mode := mode; img_size_w := img_size_w i; img_size_h := img_size_h i |}.

(** [img.resize((w, h), Image.LANCZOS)]: Pillow's [_resize] refuses a
    target size below one pixel with [ValueError("height and width must
    be > 0")]; otherwise the result has the requested size. *)
Definition pil_resize (i : image) (w h : Z) : res image :=
  if ((w <? 1) || (h <? 1))%Z
  then Err (ValueError "height and width must be > 0")
  else Ok {| img_mode := img_mode i; img_size_w := w; img_size_h := h |}.

(** ** reportlab canvas *)

Record canvas := {
  cv_filename : string;
  cv_pagesize : Q * Q;
  cv_pages : list page;         (* pages finished by showPage *)
  cv_code : list page_op        (* operators of the current page *)
}.

(** [canvas.Canvas(out_pdf_path, pagesize=(w, h))]. *)
Definition Canvas (filename : string) (pagesize : Q * Q) : canvas :=
  {| cv_filename := filename; cv_pagesize := pagesize;
     cv_pages := []; cv_code := [] |}.

(** The operator [c.drawImage] adds to the current page for a decoded image. *)
Definition canvas_draw (c : canvas) (i : image) (x y w h : PrimFloat.float) : canvas :=
  {| cv_filename := cv_filename c; cv_pagesize := cv_pagesize c;
     cv_pages := cv_pages c;
     cv_code := cv_code c ++ [DrawImage (img_size_w i) (img_size_h i) x y w h] |}.

(** The first argument of [c.drawImage]: a file name, an [ImageReader], or
    (as at line 146) an [io.BytesIO] buffer holding a PNG of an image. *)
Inductive image_source :=
| SrcFileName (path : string)
| SrcImageReader (i : image)
| SrcBytesIO (i : image).

(** [c.drawImage(image, x, y, width=w, height=h, mask='auto')].
    reportlab draws an [ImageReader] directly; any other argument is taken
    as a file name: [PDFImageXObject] calls [os.path.splitext] on it and
    then opens the file. [os.path.splitext] of a [BytesIO] raises
    [TypeError]. *)
Definition drawImage (c : canvas) (src : image_source) (x y w h : PrimFloat.float) : M canvas :=
  match src with
  | SrcImageReader i => ret (canvas_draw c i x y w h)
  | SrcFileName path => bind (image_open path) (fun i => ret (canvas_draw c i x y w h))
  | SrcBytesIO _ =>
      raise (TypeError "expected str, bytes or os.PathLike object, not BytesIO")
  end.

(** [c.showPage()]: closes the current page, with MediaBox
    [0 0 w h], and starts an empty one. *)
Definition showPage (c : canvas) : canvas :=
  let '(w, h) := cv_pagesize c in
  {| cv_filename := cv_filename c; cv_pagesize := cv_pagesize c;
     cv_pages := cv_pages c ++ [{| MediaBox := [0; 0; w; h]; contents := cv_code c |}];
     cv_code := [] |}.

(** [c.save()]: a pending page is shown first, then the file is written. *)
Definition canvas_save (c : canvas) : M unit :=
  let c' := match cv_code c with [] => c | _ => showPage c end in
  write_file (cv_filename c') (PdfFile (cv_pages c')).

(** ** [create_banner_pdf_from_image] (lines 128-148)

    The page size arrives as the exact numbers read from the MediaBox and
    is converted to floats; lines 136-140 then run in doubles
    ([fit_image_f]) and [int(new_w)], [int(new_h)] truncate doubles. *)

Definition create_banner_pdf_from_image (img_path out_pdf_path : string)
    (width_pt height_pt : Q) : M unit :=
  let c := Canvas out_pdf_path (width_pt, height_pt) in
  let* img := image_open img_path in
  let iw := img_size_w img in
  let ih := img_size_h img in
  let* f := lift (fit_image_f iw ih (float_of_Q width_pt) (float_of_Q height_pt)) in
  let img := convert img "RGBA" in
  let* w := lift (py_int_f (fnew_w f)) in
  let* h := lift (py_int_f (fnew_h f)) in
  let* small := lift (pil_resize img w h) in
  (* buf = BytesIO(); small.save(buf, format="PNG"); buf.seek(0) *)
  let buf := SrcBytesIO small in
  let* c := drawImage c buf (foff_x f) (foff_y f) (fnew_w f) (fnew_h f) in
  let c := showPage c in
  canvas_save c.

(** ** Paths: [os.path.join] and [os.path.basename] (posixpath) *)

Fixpoint str_last (s : string) : option ascii :=
  match s with
  | EmptyString => None
  | String c EmptyString => Some c
  | String _ s' => str_last s'
  end.

Definition starts_with_sep (b : string) : bool :=
  match b with String c _ => Ascii.eqb c "/"%char | EmptyString => false end.

Definition ends_with_sep (a : string) : bool :=
  match str_last a with Some c => Ascii.eqb c "/"%char | None => false end.

(** [os.path.join(a, b)] (posixpath):
    {v
    if b.startswith(sep): path = b
    elif not path or path.endswith(sep): path += b
    else: path += sep + b
    v} *)
Definition join (a b : string) : string :=
  if starts_with_sep b then b
  else if String.eqb a "" then b
  else if ends_with_sep a then a +:+ b
  else a +:+ "/" +:+ b.

(** [p[p.rfind('/') + 1:]]: the characters after the last separator. *)
Fixpoint basename_go (s cur : string) : string :=
  match s with
  | EmptyString => cur
  | String c s' =>
      if Ascii.eqb c "/"%char then basename_go s' "" else basename_go s' (cur +:+ String c "")
  end.

Definition basename (p : string) : string := basename_go p "".

Section Paths.

Variable DATA_DIR : string.

Definition BANNER_DIR : string := join DATA_DIR "banners".
Definition TMP_DIR : string := join DATA_DIR "tmp".

(** [banner_path_for_chat] (lines 61-64); [str(chat_id)] is [pretty].
    Line 63, [os.makedirs(d, exist_ok=True)], also creates the directory
    [BANNER_DIR/<chat_id>] when it is missing. The file system [fs] of
    this development holds regular files only, so that directory is not
    represented: the theorems about the handlers speak of files, and say
    nothing about directories. *)
Definition banner_path_for_chat (chat_id : Z) : string :=
  let d := join BANNER_DIR (pretty chat_id) in
  join d "banner.png".

(** The intermediate banner PDF of line 163. *)
Definition banner_pdf_tmp (banner_img_path : string) : string :=
  join TMP_DIR ("banner_" +:+ basename banner_img_path +:+ ".pdf").

(** The downloaded and the produced PDF of [handle_pdf_message]
    (lines 201-202). *)
Definition orig_file (message_id : Z) : string :=
  join TMP_DIR (pretty message_id +:+ "_orig.pdf").
Definition out_file (message_id : Z) : string :=
  join TMP_DIR (pretty message_id +:+ "_out.pdf").

(** The temporary artifacts one invocation of [handle_pdf_message] for
    message [message_id] in chat [chat_id] uses: the downloaded PDF, the
    output PDF and the intermediate banner PDF. *)
Definition invocation_temp_paths (chat_id message_id : Z) : list string :=
  [orig_file message_id; out_file message_id;
   banner_pdf_tmp (banner_path_for_chat chat_id)].

(** ** [replace_first_page_with_banner] (lines 151-175) *)

(** Lines 154-161: the first page's MediaBox, unpacked into four floats,
    gives [abs(urx - llx)] by [abs(ury - lly)]. A box of another length
    fails the unpacking; recent pikepdf versions already replace such a
    box by [0 0 612 792] when the file is opened, and no theorem below
    depends on that case. The box is read in exact arithmetic. *)
Definition extract_first_page_size (original : pdf) : res (Q * Q) :=
  match original with
  | [] => Err (ValueError "PDF has no pages")
  | p :: _ =>
      match MediaBox p with
      | [llx; lly; urx; ury] => Ok (Qabs (urx - llx), Qabs (ury - lly))
      | _ => Err (ValueError "wrong number of values to unpack")
      end
  end.

Definition replace_first_page_with_banner
    (original_pdf_path banner_img_path output_pdf_path : string) : M unit :=
  let* original := pdf_open original_pdf_path in
  let* size := lift (extract_first_page_size original) in
  let tmp := banner_pdf_tmp banner_img_path in
  let* _ := create_banner_pdf_from_image banner_img_path tmp size.1 size.2 in
  let* banner_pdf := pdf_open tmp in
  let* original := pdf_open original_pdf_path in
  (* out = Pdf.new(); append every banner page, then original[1:] *)
  let out := banner_pdf ++ drop 1 original in
  write_file output_pdf_path (PdfFile out).

End Paths.

(** ** The bot's handlers (lines 47-125, 178-206) *)

(** Errors the handlers can meet: those of the core, and an attribute
    access on [None] ([message.document.file_id] without a document,
    [mime_type.startswith] without a MIME type). *)
Inductive bot_error :=
| PyErr (e : py_error)
| AttributeError (msg : string).

Inductive outcome (A : Type) :=
| Done (a : A)
| Raised (e : bot_error).
Arguments Done {A} a.
Arguments Raised {A} e.

(** What the bot sends back. [ReplyFailure chat prefix e] is the reply
    [f"{prefix}{e}"]; the text of [str(e)] is not modelled. *)
Inductive outgoing :=
| ReplyText (chat : Z) (text : string)
| ReplyFailure (chat : Z) (prefix : string) (e : bot_error)
| SendDocument (chat : Z) (content : file) (caption : string).

Record document := {
  mime_type : option string;
  doc_content : file            (* what download_media stores *)
}.

(** An incoming message: chat id, message id, photo, document and the
    message it replies to. *)
#[warnings="-register-all"]
Inductive message :=
| Message (chat_id message_id : Z) (photo : option file)
          (doc : option document) (reply_to_message : option message).

Definition msg_chat (m : message) : Z := let '(Message c _ _ _ _) := m in c.
Definition msg_id (m : message) : Z := let '(Message _ i _ _ _) := m in i.
Definition msg_photo (m : message) : option file := let '(Message _ _ p _ _) := m in p.
Definition msg_document (m : message) : option document := let '(Message _ _ _ d _) := m in d.
Definition msg_reply_to (m : message) : option message := let '(Message _ _ _ _ r) := m in r.

(** The process state: the [awaiting_banner] dict, the files on disk and
    the messages sent so far. *)
Record bot := {
  awaiting_banner : gmap Z bool;
  bot_files : fs;
  outbox : list outgoing
}.

Definition BotM (A : Type) := bot -> outcome A * bot.

Definition bret {A} (a : A) : BotM A := fun b => (Done a, b).
Definition bthrow {A} (e : bot_error) : BotM A := fun b => (Raised e, b).
Definition bbind {A B} (m : BotM A) (k : A -> BotM B) : BotM B :=
  fun b => match m b with
           | (Done a, b') => k a b'
           | (Raised e, b') => (Raised e, b')
           end.

Notation "'let!' x := m 'in' k" := (bbind m (fun x => k))
  (at level 200, x name, m at level 100, right associativity).

(** [try: m except Exception as e: h e]: effects before the exception stay. *)
Definition try_except {A} (m : BotM A) (h : bot_error -> BotM A) : BotM A :=
  fun b => match m b with
           | (Done a, b') => (Done a, b')
           | (Raised e, b') => h e b'
           end.

Definition set_files (b : bot) (s : fs) : bot :=
  {| awaiting_banner := awaiting_banner b; bot_files := s; outbox := outbox b |}.
Definition set_awaiting (b : bot) (a : gmap Z bool) : bot :=
  {| awaiting_banner := a; bot_files := bot_files b; outbox := outbox b |}.
Definition send (b : bot) (o : outgoing) : bot :=
  {| awaiting_banner := awaiting_banner b; bot_files := bot_files b; outbox := outbox b ++ [o] |}.

(** Runs a file-system computation of the core on the bot's files. *)
Definition on_files {A} (m : M A) : BotM A :=
  fun b => match m (bot_files b) with
           | (Ok a, s') => (Done a, set_files b s')
           | (Err e, s') => (Raised (PyErr e), set_files b s')
           end.

(** [message.reply_text(text)]. *)
Definition reply_text (chat : Z) (text : string) : BotM unit :=
  fun b => (Done tt, send b (ReplyText chat text)).
Definition reply_failure (chat : Z) (prefix : string) (e : bot_error) : BotM unit :=
  fun b => (Done tt, send b (ReplyFailure chat prefix e)).

(** [os.path.exists(path)]. *)
Definition path_exists (path : string) : BotM bool :=
  fun b => (Done (bool_decide (is_Some (bot_files b !! path))), b).

(** [os.remove(path)]. *)
Definition os_remove (path : string) : BotM unit :=
  fun b => match bot_files b !! path with
           | Some _ => (Done tt, set_files b (delete path (bot_files b)))
           | None => (Raised (PyErr (FileNotFoundError path)), b)
           end.

(** [client.download_media(..., file_name=path)]: stores the media at
    [path] and returns [path]. *)
Definition download_media (content : file) (path : string) : BotM string :=
  fun b => (Done path, set_files b (<[path := content]> (bot_files b))).

(** [client.send_document(chat_id, path, caption=...)]: uploads the file. *)
Definition send_document (chat : Z) (path : string) (caption : string) : BotM unit :=
  fun b => match bot_files b !! path with
           | Some f => (Done tt, send b (SendDocument chat f caption))
           | None => (Raised (PyErr (FileNotFoundError path)), b)
           end.

(** [awaiting_banner[chat_id] = True] and [awaiting_banner.pop(chat_id, None)]. *)
Definition await_banner (chat : Z) : BotM unit :=
  fun b => (Done tt, set_awaiting b (<[chat := true]> (awaiting_banner b))).
Definition pop_awaiting (chat : Z) : BotM unit :=
  fun b => (Done tt, set_awaiting b (delete chat (awaiting_banner b))).

(** [str.startswith("image")]. *)
Definition starts_with_image (s : string) : bool := String.prefix "image" s.

Section Handlers.

Variable DATA_DIR : string.

(** [start_cmd] (lines 67-69). *)
Definition start_cmd (m : message) : BotM unit :=
  reply_text (msg_chat m) "Hello! Send /setbanner to upload a banner, then send a PDF to replace its first page with that banner.".

(** [setbanner_cmd] (lines 72-76). *)
Definition setbanner_cmd (m : message) : BotM unit :=
  let chat := msg_chat m in
  let! _ := await_banner chat in
  reply_text chat "Okay — send the banner image now as a photo or image file. I will save it for this chat.".

(** [removebanner_cmd] (lines 79-87). *)
Definition removebanner_cmd (m : message) : BotM unit :=
  let chat := msg_chat m in
  let path := banner_path_for_chat DATA_DIR chat in
  let! ex := path_exists path in
  if ex then
    let! _ := os_remove path in
    reply_text chat "Banner removed for this chat."
  else reply_text chat "No banner was set for this chat.".

(** [status_cmd] (lines 90-97). *)
Definition status_cmd (m : message) : BotM unit :=
  let chat := msg_chat m in
  let path := banner_path_for_chat DATA_DIR chat in
  let! ex := path_exists path in
  if ex then reply_text chat "Banner is set for this chat."
  else reply_text chat "No banner set. Use /setbanner to upload one.".

(** The download target [TMP_DIR/{message_id}_banner] of lines 110, 112. *)
Definition banner_download_path (message_id : Z) : string :=
  join (TMP_DIR DATA_DIR) (pretty message_id +:+ "_banner").

(** The body of the [try] of [receive_image] (lines 109-122). *)
Definition receive_image_body (m : message) : BotM unit :=
  let chat := msg_chat m in
  let save (f : string) : BotM unit :=
    let! img := on_files (image_open f) in
    let dest := banner_path_for_chat DATA_DIR chat in
    let! _ := on_files (write_file dest (ImageFile (convert img "RGBA"))) in
    let! _ := pop_awaiting chat in
    reply_text chat "Banner saved for this chat." in
  match msg_photo m with
  | Some ph =>
      let! f := download_media ph (banner_download_path (msg_id m)) in save f
  | None =>
      match msg_document m with
      | Some d =>
          match mime_type d with
          | None => bthrow (AttributeError "'NoneType' object has no attribute 'startswith'")
          | Some mt =>
              if starts_with_image mt then
                let! f := download_media (doc_content d) (banner_download_path (msg_id m)) in save f
              else reply_text chat "Please send a PNG or JPG image."
          end
      | None => reply_text chat "Please send a PNG or JPG image."
      end
  end.

(** [receive_image] (lines 100-125). *)
Definition receive_image (m : message) : BotM unit :=
  let chat := msg_chat m in
  fun b =>
    match awaiting_banner b !! chat with
    | Some true =>
        try_except (receive_image_body m)
          (fun e => let! _ := pop_awaiting chat in reply_failure chat "Failed to save banner: " e) b
    | _ => (Done tt, b)
    end.

(** [handle_pdf_message] (lines 192-206), the function both handlers call. *)
Definition handle_pdf_message (m : message) : BotM unit :=
  let chat := msg_chat m in
  let path := banner_path_for_chat DATA_DIR chat in
  let! ex := path_exists path in
  if negb ex then
    reply_text chat "No banner set for this chat. Use /setbanner to upload a banner first."
  else
    try_except
      (match msg_document m with
       | None => bthrow (AttributeError "'NoneType' object has no attribute 'file_id'")
       | Some d =>
           let! orig := download_media (doc_content d) (orig_file DATA_DIR (msg_id m)) in
           let out := out_file DATA_DIR (msg_id m) in
           let! _ := on_files (replace_first_page_with_banner DATA_DIR orig path out) in
           send_document chat out "Here is your edited PDF (first page replaced with banner)."
       end)
      (fun e => reply_failure chat "Failed to process PDF: " e).

(** [process_cmd] (lines 178-184). *)
Definition process_cmd (m : message) : BotM unit :=
  match msg_reply_to m with
  | None => reply_text (msg_chat m) "Reply to a PDF message with /process to replace its first page."
  | Some r => handle_pdf_message r
  end.

(** Every message handler of the bot; the one registered at line 187
    calls [handle_pdf_message]. *)
Definition handlers : list (message -> BotM unit) :=
  [start_cmd; setbanner_cmd; removebanner_cmd; status_cmd; receive_image;
   process_cmd; handle_pdf_message].

End Handlers.

(** * Properties *)

(** ** Image fitter *)

Lemma inject_Z_nonzero (z : Z) : z <> 0%Z -> Qeq_bool (inject_Z z) 0 = false.
Proof.
  intros Hz. destruct (Qeq_bool (inject_Z z) 0) eqn:E; [|reflexivity].
  apply Qeq_bool_iff in E. exfalso. apply Hz. apply (inject_Z_injective z 0). exact E.
Qed.

Lemma py_min_Qmin (a b : Q) : py_min a b == Qmin a b.
Proof.
  unfold py_min. destruct (Qlt_le_dec b a) as [H|H].
  - rewrite Q.min_r; [reflexivity|]. apply Qlt_le_weak. exact H.
  - rewrite Q.min_l; [reflexivity|exact H].
Qed.




(** With non-zero pixel sizes the two divisions succeed and the fitter
    returns the five values of lines 136-140. *)
Lemma fit_image_eq (iw ih : Z) (tw th : Q) :
  iw <> 0%Z -> ih <> 0%Z ->
  fit_image iw ih tw th =
  Ok (let r := py_min (tw / inject_Z iw) (th / inject_Z ih) in
      {| ratio := r; new_w := inject_Z iw * r; new_h := inject_Z ih * r;
         off_x := (tw - inject_Z iw * r) / 2;
         off_y := (th - inject_Z ih * r) / 2 |}).
Proof.
  intros Hw Hh. unfold fit_image, py_div.
  rewrite (inject_Z_nonzero iw Hw), (inject_Z_nonzero ih Hh). reflexivity.
Qed.





(** C3: for strictly positive sizes the fitter returns
    [scale = min(tw/iw, th/ih)], [drawWidth = iw*scale],
    [drawHeight = ih*scale], [offsetX = (tw - drawWidth)/2],
    [offsetY = (th - drawHeight)/2]; for a 1000x500 image and a 612x792
    target this is scale 0.612, 612 by 306, at offset (0, 243). *)
Theorem fit_image_spec (iw ih : Z) (tw th : Q) :
  (0 < iw)%Z -> (0 < ih)%Z -> 0 < tw -> 0 < th ->
  (exists f, fit_image iw ih tw th = Ok f /\
     ratio f == Qmin (tw / inject_Z iw) (th / inject_Z ih) /\
     new_w f == inject_Z iw * ratio f /\
     new_h f == inject_Z ih * ratio f /\
     off_x f == (tw - new_w f) / 2 /\
     off_y f == (th - new_h f) / 2) /\
  (exists f, fit_image 1000 500 612 792 = Ok f /\
     ratio f == 0.612 /\ new_w f == 612 /\ new_h f == 306 /\
     off_x f == 0 /\ off_y f == 243).
Proof.
  intros Hiw Hih _ _. split.
  - rewrite fit_image_eq by lia. eexists. split; [reflexivity|].
    cbn. rewrite py_min_Qmin.
    repeat split; reflexivity.
  - eexists. split; [vm_compute; reflexivity|].
    repeat split; vm_compute; reflexivity.
Qed.

Lemma fit_image_spec_witness :
  ((0 < 1000)%Z /\ (0 < 500)%Z /\ 0 < 612 /\ 0 < 792) /\
  exists f, fit_image 1000 500 612 792 = Ok f /\
     ratio f == Qmin (612 / inject_Z 1000) (792 / inject_Z 500).
Proof.
  split; [repeat split; vm_compute; reflexivity|].
  destruct (fit_image_spec 1000 500 612 792) as [[f [Hf [Hr _]]] _];
    try (vm_compute; reflexivity).
  exists f. split; [exact Hf | exact Hr].
Defined.





(** C7, as the code behaves: the fitter validates nothing. It fails, and
    only with [ZeroDivisionError], exactly when a pixel dimension is 0; for
    non-zero pixel sizes it computes a result whatever the target sizes. *)
Theorem fit_image_fails_iff_zero_pixels (iw ih : Z) (tw th : Q) (e : py_error) :
  fit_image iw ih tw th = Err e <-> (e = ZeroDivisionError /\ (iw = 0 \/ ih = 0)%Z).
Proof.
  destruct (Z.eq_dec iw 0%Z) as [->|Hw].
  - cbv [fit_image py_div res_bind]. simpl.
    split; [intros H; inversion H; auto | intros [-> _]; reflexivity].
  - destruct (Z.eq_dec ih 0%Z) as [->|Hh].
    + unfold fit_image, py_div, res_bind. rewrite (inject_Z_nonzero iw Hw). simpl.
      split; [intros H; inversion H; auto | intros [-> _]; reflexivity].
    + rewrite fit_image_eq by assumption.
      split; [discriminate | intros [_ [H|H]]; contradiction].
Qed.

(** C7 fails: a zero target width yields a computed result (scale 0),
    and a zero image width raises [ZeroDivisionError]; neither is an
    [InvalidDimension] failure. *)
Lemma fit_image_no_dimension_check :
  (exists f, fit_image 100 100 0 792 = Ok f /\ ratio f == 0 /\ new_w f == 0) /\
  fit_image 0 500 612 792 = Err ZeroDivisionError.
Proof.
  split.
  - eexists. split; [vm_compute; reflexivity|]. split; vm_compute; reflexivity.
  - vm_compute. reflexivity.
Qed.

(** ** Page-geometry extraction *)

(** C5: for a first page whose MediaBox has four coordinates, the size is
    [(|urx - llx|, |ury - lly|)], both non-negative; [(0,0,595,842)] and
    the swapped [(595,842,0,0)] both give [(595, 842)]. *)
Theorem extract_first_page_size_abs (llx lly urx ury : Q) (cs : list page_op) (rest : pdf) :
  (exists w h,
     extract_first_page_size ({| MediaBox := [llx; lly; urx; ury]; contents := cs |} :: rest)
       = Ok (w, h) /\
     w = Qabs (urx - llx) /\ h = Qabs (ury - lly) /\ 0 <= w /\ 0 <= h) /\
  extract_first_page_size ({| MediaBox := [0; 0; 595; 842]; contents := cs |} :: rest)
    = Ok (595, 842) /\
  extract_first_page_size ({| MediaBox := [595; 842; 0; 0]; contents := cs |} :: rest)
    = Ok (595, 842).
Proof.
  split; [|split; reflexivity].
  exists (Qabs (urx - llx)), (Qabs (ury - lly)).
  split; [reflexivity|]. repeat split; apply Qabs_nonneg.
Qed.

(** ** Rendering *)

(** C8 fails: a 2000x1 image fitted to a 612x792 page is drawn 0.306 pt
    high, [int(new_h)] is 0 and Pillow's resize raises, so the renderer
    fails on this well-formed input. *)
Theorem create_banner_thin_image_fails (s : fs) (img_path out_path : string) :
  s !! img_path = Some (ImageFile {| img_mode := "RGB"; img_size_w := 2000; img_size_h := 1 |}) ->
  (exists f, fit_image 2000 1 612 792 = Ok f /\ new_h f == 0.306 /\ py_int (new_h f) = 0%Z) /\
  create_banner_pdf_from_image img_path out_path 612 792 s
    = (Err (ValueError "height and width must be > 0"), s).
Proof.
  intros Himg. split.
  - eexists. split; [vm_compute; reflexivity|]. split; vm_compute; reflexivity.
  - unfold create_banner_pdf_from_image, bind at 1, image_open. rewrite Himg.
    vm_compute. reflexivity.
Qed.

Lemma create_banner_thin_image_fails_witness :
  let s : fs := <[ "banners/1/banner.png" :=
                   ImageFile {| img_mode := "RGB"; img_size_w := 2000; img_size_h := 1 |} ]> ∅ in
  s !! "banners/1/banner.png"
    = Some (ImageFile {| img_mode := "RGB"; img_size_w := 2000; img_size_h := 1 |}) /\
  create_banner_pdf_from_image "banners/1/banner.png" "tmp/banner_banner.png.pdf" 612 792 s
    = (Err (ValueError "height and width must be > 0"), s).
Proof.
  intros s. split; [reflexivity|].
  apply (create_banner_thin_image_fails s); reflexivity.
Defined.

(** ** Temporary paths *)

Lemma append_nil_str (b : string) : "" +:+ b = b.
Proof. reflexivity. Qed.

Lemma append_cons_str (x : ascii) (a b : string) : String x a +:+ b = String x (a +:+ b).
Proof. reflexivity. Qed.

Lemma append_assoc_str (a b c : string) : (a +:+ b) +:+ c = a +:+ (b +:+ c).
Proof.
  induction a as [|x a IH]; [reflexivity|].
  rewrite !append_cons_str, IH. reflexivity.
Qed.

Lemma ends_with_sep_split (a : string) :
  ends_with_sep a = true -> exists a', a = a' +:+ "/".
Proof.
  unfold ends_with_sep. induction a as [|c a IH]; simpl; [discriminate|].
  destruct a as [|c' a'].
  - intros H. apply Ascii.eqb_eq in H. subst c. exists "". reflexivity.
  - intros H. destruct (IH H) as [a'' E]. exists (String c a'').
    rewrite append_cons_str, <- E. reflexivity.
Qed.

(** Whatever precedes the last separator is dropped by [basename]. *)
Lemma basename_go_after_sep (a t cur : string) :
  basename_go (a +:+ String "/" t) cur = basename_go t "".
Proof.
  revert cur. induction a as [|c a IH]; intros cur; [reflexivity|].
  rewrite append_cons_str. simpl. destruct (Ascii.eqb c "/"); apply IH.
Qed.

(** The basename of [os.path.join(d, "banner.png")] is ["banner.png"],
    whatever the directory [d]. *)
Lemma basename_join_banner (d : string) :
  basename (join d "banner.png") = "banner.png".
Proof.
  unfold join. simpl starts_with_sep. cbv iota.
  destruct (String.eqb d "") eqn:E; [reflexivity|].
  destruct (ends_with_sep d) eqn:S.
  - destruct (ends_with_sep_split d S) as [d' ->].
    rewrite append_assoc_str. unfold basename.
    apply (basename_go_after_sep d' "banner.png" "").
  - unfold basename. apply (basename_go_after_sep d "banner.png" "").
Qed.

(** C9 (general form): the intermediate banner PDF path of an invocation
    depends on neither the chat nor the message: it is always
    [TMP_DIR/banner_banner.png.pdf]. *)
Theorem banner_pdf_tmp_constant (data_dir : string) (chat_id message_id : Z) :
  nth 2 (invocation_temp_paths data_dir chat_id message_id) ""
    = join (TMP_DIR data_dir) "banner_banner.png.pdf".
Proof.
  simpl. unfold banner_pdf_tmp, banner_path_for_chat.
  rewrite basename_join_banner. reflexivity.
Qed.

(** C9 fails: two invocations for messages 1 and 2 of chat 10 use
    different downloaded files but the same intermediate banner PDF. *)
Lemma banner_pdf_tmp_collision :
  (1 <> 2)%Z /\
  nth 0 (invocation_temp_paths "." 10 1) "" <> nth 0 (invocation_temp_paths "." 10 2) "" /\
  nth 2 (invocation_temp_paths "." 10 1) "" = nth 2 (invocation_temp_paths "." 10 2) "" /\
  nth 2 (invocation_temp_paths "." 10 1) "" = "./tmp/banner_banner.png.pdf".
Proof.
  split; [lia|]. split; [vm_compute; discriminate|]. split; vm_compute; reflexivity.
Qed.

(** ** The renderer's effect on the file system *)

(** [create_banner_pdf_from_image] always raises and writes nothing: it
    fails in [Image.open], in the fit, in Pillow's resize, or else at
    line 146, where [c.drawImage] is given the [BytesIO] buffer; the
    canvas is never saved. *)
Lemma create_banner_raises (img_path out_pdf_path : string) (w h : Q) (s : fs) :
  exists e, create_banner_pdf_from_image img_path out_pdf_path w h s = (Err e, s).
Proof.
  unfold create_banner_pdf_from_image, image_open, drawImage.
  cbv [bind lift ret raise].
  destruct (s !! img_path) as [[pg|i|b]|]; try (eexists; reflexivity).
  destruct (fit_image_f _ _ _ _) as [f|e]; [|eexists; reflexivity].
  destruct (py_int_f (fnew_w f)) as [zw|e]; [|eexists; reflexivity].
  destruct (py_int_f (fnew_h f)) as [zh|e]; [|eexists; reflexivity].
  destruct (pil_resize _ _ _) as [small|e]; eexists; reflexivity.
Qed.

(** Hence the splice raises on every input as well, and leaves every file
    as it was. *)
Lemma replace_raises (data_dir orig bimg out : string) (s : fs) :
  exists e, replace_first_page_with_banner data_dir orig bimg out s = (Err e, s).
Proof.
  unfold replace_first_page_with_banner. cbv [bind lift ret raise].
  unfold pdf_open at 1.
  destruct (s !! orig) as [[src|i|b]|]; try (eexists; reflexivity).
  destruct (extract_first_page_size src) as [[w h]|e]; [|eexists; reflexivity].
  simpl. destruct (create_banner_raises bimg (banner_pdf_tmp data_dir bimg) w h s) as [e E].
  rewrite E. eexists; reflexivity.
Qed.

(** A three-page source PDF and a chat banner, used by the witnesses. *)
Definition sample_src : pdf :=
  [ {| MediaBox := [0; 0; 595; 842]; contents := [] |};
    {| MediaBox := [0; 0; 595; 842]; contents := [RawContent [Byte.x41]] |};
    {| MediaBox := [0; 0; 612; 792]; contents := [RawContent [Byte.x42]] |} ].

Definition banner_fs : fs :=
  <[ "o.pdf" := PdfFile sample_src ]>
  (<[ "banners/1/banner.png" :=
        ImageFile {| img_mode := "RGB"; img_size_w := 1000; img_size_h := 500 |} ]> ∅).

(** C10 fails: [create_banner_pdf_from_image] never succeeds, so it never
    produces the one-page banner PDF whose page the splicer's loop would
    append: on every input it raises and writes no file. For a decodable
    1000x500 banner on a 612x792 page the fit and the resize succeed, and
    [c.drawImage] raises [TypeError] on the [BytesIO] buffer. *)
Theorem create_banner_never_succeeds (img_path out_pdf_path : string) (w h : Q) (s : fs) :
  (exists e, create_banner_pdf_from_image img_path out_pdf_path w h s = (Err e, s)) /\
  create_banner_pdf_from_image "banners/1/banner.png" "tmp/banner_banner.png.pdf" 612 792 banner_fs
    = (Err (TypeError "expected str, bytes or os.PathLike object, not BytesIO"), banner_fs).
Proof.
  split; [apply create_banner_raises | vm_compute; reflexivity].
Qed.

(** C1 fails: for every source PDF with at least one page the splice
    raises, so no output document is produced, let alone one holding the
    banner page followed by the source's pages from index 1 on; the output
    path keeps whatever it held before. *)
Theorem replace_first_page_never_outputs (data_dir orig bimg out : string) (s : fs) (src : pdf) :
  s !! orig = Some (PdfFile src) -> src <> [] ->
  exists e, replace_first_page_with_banner data_dir orig bimg out s = (Err e, s) /\
            (replace_first_page_with_banner data_dir orig bimg out s).2 !! out = s !! out.
Proof.
  intros _ _. destruct (replace_raises data_dir orig bimg out s) as [e E].
  exists e. rewrite E. auto.
Qed.

Lemma replace_first_page_never_outputs_witness :
  banner_fs !! "o.pdf" = Some (PdfFile sample_src) /\ sample_src <> [] /\
  replace_first_page_with_banner "." "o.pdf" "banners/1/banner.png" "tmp/1_out.pdf" banner_fs
    = (Err (TypeError "expected str, bytes or os.PathLike object, not BytesIO"), banner_fs) /\
  exists e,
    replace_first_page_with_banner "." "o.pdf" "banners/1/banner.png" "tmp/1_out.pdf" banner_fs
      = (Err e, banner_fs) /\
    (replace_first_page_with_banner "." "o.pdf" "banners/1/banner.png" "tmp/1_out.pdf" banner_fs).2
      !! "tmp/1_out.pdf" = banner_fs !! "tmp/1_out.pdf".
Proof.
  split; [reflexivity|]. split; [discriminate|]. split; [vm_compute; reflexivity|].
  apply (replace_first_page_never_outputs "." "o.pdf" "banners/1/banner.png" "tmp/1_out.pdf"
           banner_fs sample_src); [reflexivity | discriminate].
Defined.

(** C2, as the code behaves: the splice leaves the source file unmodified,
    but it raises on every input and never writes an output document, so
    there are no output pages 1..N-1 to match the source's. *)
Theorem replace_leaves_source_no_output (data_dir orig bimg out : string) (s : fs) :
  (exists e, (replace_first_page_with_banner data_dir orig bimg out s).1 = Err e) /\
  (replace_first_page_with_banner data_dir orig bimg out s).2 !! orig = s !! orig /\
  (replace_first_page_with_banner data_dir orig bimg out s).2 !! out = s !! out.
Proof.
  destruct (replace_raises data_dir orig bimg out s) as [e E].
  rewrite E. simpl. eauto.
Qed.

(** C6: on a PDF with no pages, the geometry extraction and the splice
    both raise [ValueError("PDF has no pages")] (the code's
    EmptyDocument), before any rendering or merging: the file system is
    left exactly as it was, so no output file appears. *)
Theorem replace_empty_document (data_dir orig bimg out : string) (s : fs) :
  s !! orig = Some (PdfFile []) ->
  extract_first_page_size [] = Err (ValueError "PDF has no pages") /\
  replace_first_page_with_banner data_dir orig bimg out s
    = (Err (ValueError "PDF has no pages"), s) /\
  (s !! out = None ->
   (replace_first_page_with_banner data_dir orig bimg out s).2 !! out = None).
Proof.
  intros Hsrc.
  assert (E : replace_first_page_with_banner data_dir orig bimg out s
              = (Err (ValueError "PDF has no pages"), s)).
  { unfold replace_first_page_with_banner. cbv [bind lift ret raise].
    unfold pdf_open at 1. rewrite Hsrc. reflexivity. }
  split; [reflexivity|]. split; [exact E|]. rewrite E. simpl. auto.
Qed.

Lemma replace_empty_document_witness :
  let s : fs := <[ "tmp/1_orig.pdf" := PdfFile [] ]> banner_fs in
  s !! "tmp/1_orig.pdf" = Some (PdfFile []) /\
  replace_first_page_with_banner "." "tmp/1_orig.pdf" "banners/1/banner.png" "tmp/1_out.pdf" s
    = (Err (ValueError "PDF has no pages"), s).
Proof.
  intros s. split; [reflexivity|].
  apply (replace_empty_document "." "tmp/1_orig.pdf" "banners/1/banner.png" "tmp/1_out.pdf" s).
  reflexivity.
Defined.

(** ** Path lemmas for the bot *)

Fixpoint has_char (c : ascii) (s : string) : bool :=
  match s with
  | EmptyString => false
  | String x s' => Ascii.eqb x c || has_char c s'
  end.

Lemma has_char_cons (c x : ascii) (s : string) :
  has_char c (String x s) = Ascii.eqb x c || has_char c s.
Proof. reflexivity. Qed.

Lemma has_char_app (c : ascii) (a b : string) :
  has_char c (a +:+ b) = has_char c a || has_char c b.
Proof.
  induction a as [|x a IH]; [reflexivity|].
  rewrite append_cons_str. simpl. rewrite IH, orb_assoc. reflexivity.
Qed.

Definition decimal_digits : list ascii :=
  ["0"; "1"; "2"; "3"; "4"; "5"; "6"; "7"; "8"; "9"]%char.

Lemma pretty_N_char_digit (n : N) : In (pretty_N_char n) decimal_digits.
Proof. unfold pretty_N_char. repeat case_match; simpl; tauto. Qed.

(** A character that is not a digit never appears in [pretty_N_go x s]
    unless it is in [s]. *)
Lemma pretty_N_go_no_char (c : ascii) (x : N) (s : string) :
  ~ In c decimal_digits -> has_char c s = false -> has_char c (pretty_N_go x s) = false.
Proof.
  intros Hc. revert s. induction (N.lt_wf_0 x) as [x _ IH]; intros s Hs.
  destruct (decide (x = 0)%N) as [->|Hx]; [rewrite pretty_N_go_0; exact Hs|].
  rewrite pretty_N_go_step by lia. apply IH; [apply N.div_lt; lia|].
  rewrite has_char_cons, Hs, orb_false_r.
  destruct (Ascii.eqb _ c) eqn:E; [|reflexivity].
  apply Ascii.eqb_eq in E. exfalso. apply Hc. rewrite <- E. apply pretty_N_char_digit.
Qed.

Lemma pretty_N_go_nonempty (x : N) (s : string) : s <> "" -> pretty_N_go x s <> "".
Proof.
  revert s. induction (N.lt_wf_0 x) as [x _ IH]; intros s Hs.
  destruct (decide (x = 0)%N) as [->|Hx]; [rewrite pretty_N_go_0; exact Hs|].
  rewrite pretty_N_go_step by lia. apply IH; [apply N.div_lt; lia | discriminate].
Qed.

Lemma pretty_N_no_char (c : ascii) (x : N) :
  ~ In c decimal_digits -> has_char c (pretty x) = false.
Proof.
  intros Hc. unfold pretty, pretty_N. case_decide.
  - rewrite has_char_cons. destruct (Ascii.eqb "0" c) eqn:E; [|reflexivity].
    apply Ascii.eqb_eq in E. exfalso. apply Hc. rewrite <- E. simpl. tauto.
  - apply pretty_N_go_no_char; [exact Hc | reflexivity].
Qed.

Lemma pretty_N_nonempty (x : N) : pretty x <> "".
Proof.
  unfold pretty, pretty_N. case_decide; [discriminate|].
  rewrite pretty_N_go_step by lia. apply pretty_N_go_nonempty. discriminate.
Qed.

(** [str(chat_id)] contains neither a separator nor any letter but is
    never empty. *)
Lemma pretty_Z_no_char (c : ascii) (z : Z) :
  ~ In c decimal_digits -> c <> "-"%char -> has_char c (pretty z) = false.
Proof.
  intros Hc Hd. unfold pretty, pretty_Z. destruct z as [|p|p].
  - rewrite has_char_cons. destruct (Ascii.eqb "0" c) eqn:E; [|reflexivity].
    apply Ascii.eqb_eq in E. exfalso. apply Hc. rewrite <- E. simpl. tauto.
  - apply (pretty_N_no_char c (Npos p) Hc).
  - rewrite append_cons_str, has_char_cons, append_nil_str.
    assert (Hn : has_char c (pretty p) = false) by exact (pretty_N_no_char c (Npos p) Hc).
    rewrite Hn, orb_false_r.
    destruct (Ascii.eqb "-" c) eqn:E; [|reflexivity].
    apply Ascii.eqb_eq in E. congruence.
Qed.

Lemma pretty_Z_nonempty (z : Z) : pretty z <> "".
Proof.
  unfold pretty, pretty_Z. destruct z as [|p|p]; [discriminate| |discriminate].
  apply (pretty_N_nonempty (Npos p)).
Qed.

Lemma pretty_Z_no_sep (z : Z) : has_char "/" (pretty z) = false.
Proof. apply pretty_Z_no_char; [simpl; intuition discriminate | discriminate]. Qed.

Lemma starts_with_sep_no_sep (s : string) :
  has_char "/" s = false -> starts_with_sep s = false.
Proof. destruct s as [|c s]; simpl; [reflexivity|]. intros H. apply orb_false_iff in H. apply H. Qed.

Lemma str_last_app (a b : string) : b <> "" -> str_last (a +:+ b) = str_last b.
Proof.
  intros Hb. induction a as [|x a IH]; [reflexivity|].
  rewrite append_cons_str.
  destruct (a +:+ b) as [|y t] eqn:E.
  - exfalso. destruct a; [exact (Hb E) | discriminate].
  - rewrite <- IH. reflexivity.
Qed.

Lemma str_last_no_sep (s : string) :
  has_char "/" s = false -> ends_with_sep s = false.
Proof.
  unfold ends_with_sep. induction s as [|c s IH]; [reflexivity|].
  simpl. intros H. apply orb_false_iff in H as [H1 H2].
  destruct s as [|c' s']; [exact H1|]. apply IH. exact H2.
Qed.

(** The directory part [os.path.join] puts before a relative [b]. *)
Definition join_prefix (a : string) : string :=
  if String.eqb a "" then ""
  else if ends_with_sep a then a
  else a +:+ "/".

Lemma join_eq (a b : string) :
  starts_with_sep b = false -> join a b = join_prefix a +:+ b.
Proof.
  intros Hb. unfold join, join_prefix. rewrite Hb.
  destruct (String.eqb a ""); [reflexivity|].
  destruct (ends_with_sep a); [reflexivity|]. rewrite append_assoc_str. reflexivity.
Qed.

Lemma append_nonempty_r (a b : string) : b <> "" -> a +:+ b <> "".
Proof. destruct a; [tauto|]. intros _. discriminate. Qed.

Lemma join_prefix_plain (a : string) :
  a <> "" -> ends_with_sep a = false -> join_prefix a = a +:+ "/".
Proof.
  intros Ha He. unfold join_prefix. rewrite He.
  destruct (String.eqb_spec a ""); [contradiction | reflexivity].
Qed.

(** Normal forms of the bot's paths, with [P = join_prefix DATA_DIR]. *)
Lemma banner_path_for_chat_eq (d : string) (c : Z) :
  banner_path_for_chat d c = join_prefix d +:+ "banners/" +:+ pretty c +:+ "/banner.png".
Proof.
  unfold banner_path_for_chat, BANNER_DIR.
  rewrite (join_eq d "banners") by reflexivity.
  rewrite (join_eq _ (pretty c)) by apply starts_with_sep_no_sep, pretty_Z_no_sep.
  rewrite (join_prefix_plain (join_prefix d +:+ "banners"));
    [| apply append_nonempty_r; discriminate
     | unfold ends_with_sep; rewrite str_last_app by discriminate; reflexivity].
  rewrite join_eq by reflexivity.
  rewrite join_prefix_plain;
    [| apply append_nonempty_r, pretty_Z_nonempty
     | unfold ends_with_sep; rewrite str_last_app by apply pretty_Z_nonempty;
       apply str_last_no_sep, pretty_Z_no_sep].
  rewrite !append_assoc_str. reflexivity.
Qed.

Lemma tmp_join_eq (d x : string) :
  starts_with_sep x = false -> join (TMP_DIR d) x = join_prefix d +:+ "tmp/" +:+ x.
Proof.
  intros Hx. unfold TMP_DIR. rewrite (join_eq d "tmp") by reflexivity.
  rewrite join_eq by exact Hx.
  rewrite join_prefix_plain;
    [| apply append_nonempty_r; discriminate
     | unfold ends_with_sep; rewrite str_last_app by discriminate; reflexivity].
  rewrite !append_assoc_str. reflexivity.
Qed.

Lemma append_cancel_l (a x y : string) : a +:+ x = a +:+ y -> x = y.
Proof.
  induction a as [|c a IH]; [tauto|].
  rewrite !append_cons_str. intros H. injection H as H. apply IH, H.
Qed.

Lemma length_append_str (a b : string) :
  String.length (a +:+ b) = (String.length a + String.length b)%nat.
Proof.
  induction a as [|c a IH]; [reflexivity|].
  rewrite append_cons_str. simpl. rewrite IH. reflexivity.
Qed.

Lemma append_cancel_r (x y t : string) : x +:+ t = y +:+ t -> x = y.
Proof.
  revert y. induction x as [|c x IH]; intros [|c' y] H.
  - reflexivity.
  - exfalso. apply (f_equal String.length) in H.
    rewrite !length_append_str in H. simpl in H. lia.
  - exfalso. apply (f_equal String.length) in H.
    rewrite !length_append_str in H. simpl in H. lia.
  - rewrite !append_cons_str in H. injection H as -> H. f_equal. apply IH, H.
Qed.

(** Distinct chats have distinct banner files. *)
Lemma banner_path_for_chat_inj (d : string) (c1 c2 : Z) :
  banner_path_for_chat d c1 = banner_path_for_chat d c2 -> c1 = c2.
Proof.
  rewrite !banner_path_for_chat_eq. intros H.
  apply append_cancel_l, append_cancel_l in H.
  apply append_cancel_r in H. apply (inj pretty), H.
Qed.

(** No file of the temporary directory is a chat's banner file. *)
Lemma tmp_ne_banner (d x : string) (c : Z) :
  starts_with_sep x = false -> join (TMP_DIR d) x <> banner_path_for_chat d c.
Proof.
  intros Hx. rewrite tmp_join_eq by exact Hx. rewrite banner_path_for_chat_eq.
  intros H. apply append_cancel_l in H. discriminate H.
Qed.

Lemma starts_with_sep_pretty_app (z : Z) (t : string) :
  starts_with_sep (pretty z +:+ t) = false.
Proof.
  destruct (pretty z) as [|x s] eqn:E; [exfalso; exact (pretty_Z_nonempty z E)|].
  pose proof (pretty_Z_no_sep z) as H. rewrite E in H.
  rewrite append_cons_str. simpl. simpl in H. apply orb_false_iff in H. apply H.
Qed.

Lemma orig_file_ne_banner (d : string) (mid c : Z) :
  orig_file d mid <> banner_path_for_chat d c.
Proof. apply tmp_ne_banner, starts_with_sep_pretty_app. Qed.

Lemma out_file_ne_banner (d : string) (mid c : Z) :
  out_file d mid <> banner_path_for_chat d c.
Proof. apply tmp_ne_banner, starts_with_sep_pretty_app. Qed.

Lemma download_path_ne_banner (d : string) (mid c : Z) :
  banner_download_path d mid <> banner_path_for_chat d c.
Proof. apply tmp_ne_banner, starts_with_sep_pretty_app. Qed.

Lemma banner_pdf_tmp_ne_banner (d b : string) (c : Z) :
  banner_pdf_tmp d b <> banner_path_for_chat d c.
Proof. apply tmp_ne_banner. reflexivity. Qed.

(** The downloaded PDF is never the intermediate banner PDF. *)
Lemma orig_file_ne_banner_pdf_tmp (d : string) (mid c : Z) :
  orig_file d mid <> banner_pdf_tmp d (banner_path_for_chat d c).
Proof.
  unfold orig_file, banner_pdf_tmp, banner_path_for_chat. cbv zeta.
  rewrite basename_join_banner.
  rewrite !tmp_join_eq by (apply starts_with_sep_pretty_app || reflexivity).
  intros H. apply append_cancel_l, append_cancel_l in H.
  pose proof (pretty_Z_no_char "b" mid) as Hb.
  destruct (pretty mid) as [|x s] eqn:E; [exact (pretty_Z_nonempty mid E)|].
  rewrite append_cons_str in H. injection H as Hx _.
  rewrite has_char_cons, Hx in Hb. simpl in Hb.
  discriminate Hb; simpl; intuition discriminate.
Qed.

(** ** Frames: which files and which chats a computation may touch *)

Definition touches_only (W : list string) {A} (m : M A) : Prop :=
  forall s r s', m s = (r, s') -> forall p, p ∉ W -> s' !! p = s !! p.

Definition never_removes {A} (m : M A) : Prop :=
  forall s r s' p, m s = (r, s') -> is_Some (s !! p) -> is_Some (s' !! p).

Lemma touches_only_bind {A B} W (m : M A) (k : A -> M B) :
  touches_only W m -> (forall a, touches_only W (k a)) -> touches_only W (bind m k).
Proof.
  intros Hm Hk s r s' H p Hp. unfold bind in H.
  destruct (m s) as [[a|e] s1] eqn:E.
  - rewrite (Hk a s1 r s' H p Hp). apply (Hm s _ s1 E p Hp).
  - injection H as _ <-. apply (Hm s _ s1 E p Hp).
Qed.

Lemma never_removes_bind {A B} (m : M A) (k : A -> M B) :
  never_removes m -> (forall a, never_removes (k a)) -> never_removes (bind m k).
Proof.
  intros Hm Hk s r s' p H Hs. unfold bind in H.
  destruct (m s) as [[a|e] s1] eqn:E.
  - apply (Hk a s1 r s' p H). apply (Hm s _ s1 p E Hs).
  - injection H as _ <-. apply (Hm s _ s1 p E Hs).
Qed.

Lemma touches_only_ret {A} W (a : A) : touches_only W (ret a).
Proof. intros s r s' H p _. injection H as _ <-. reflexivity. Qed.
Lemma touches_only_lift {A} W (x : res A) : touches_only W (lift x).
Proof. intros s r s' H p _. destruct x; injection H as _ <-; reflexivity. Qed.
Lemma touches_only_pdf_open W path : touches_only W (pdf_open path).
Proof.
  intros s r s' H p _. unfold pdf_open in H.
  destruct (s !! path) as [[]|]; injection H as _ <-; reflexivity.
Qed.
Lemma touches_only_image_open W path : touches_only W (image_open path).
Proof.
  intros s r s' H p _. unfold image_open in H.
  destruct (s !! path) as [[]|]; injection H as _ <-; reflexivity.
Qed.
Lemma touches_only_write W path f : path ∈ W -> touches_only W (write_file path f).
Proof.
  intros Hin s r s' H p Hp. injection H as _ <-.
  apply lookup_insert_ne. intros ->. contradiction.
Qed.

Lemma never_removes_ret {A} (a : A) : never_removes (ret a).
Proof. intros s r s' p H Hs. injection H as _ <-. exact Hs. Qed.
Lemma never_removes_lift {A} (x : res A) : never_removes (lift x).
Proof. intros s r s' p H Hs. destruct x; injection H as _ <-; exact Hs. Qed.
Lemma never_removes_pdf_open path : never_removes (pdf_open path).
Proof.
  intros s r s' p H Hs. unfold pdf_open in H.
  destruct (s !! path) as [[]|]; injection H as _ <-; exact Hs.
Qed.
Lemma never_removes_write path f : never_removes (write_file path f).
Proof.
  intros s r s' p H Hs. injection H as _ <-.
  destruct (decide (p = path)) as [->|Hne]; [rewrite lookup_insert_eq; eauto|].
  rewrite lookup_insert_ne by congruence. exact Hs.
Qed.

Lemma touches_only_create_banner W img out w h :
  out ∈ W -> touches_only W (create_banner_pdf_from_image img out w h).
Proof.
  intros _ s r s' H p _.
  destruct (create_banner_raises img out w h s) as [e E].
  rewrite E in H. injection H as _ <-. reflexivity.
Qed.

Lemma never_removes_create_banner img out w h :
  never_removes (create_banner_pdf_from_image img out w h).
Proof.
  intros s r s' p H Hs.
  destruct (create_banner_raises img out w h s) as [e E].
  rewrite E in H. injection H as _ <-. exact Hs.
Qed.

(** The splice writes no file other than the intermediate banner PDF and the output,
    and deletes nothing (it in fact raises before writing either). *)
Lemma touches_only_replace d orig bimg out :
  touches_only [banner_pdf_tmp d bimg; out] (replace_first_page_with_banner d orig bimg out).
Proof.
  unfold replace_first_page_with_banner.
  apply touches_only_bind; [apply touches_only_pdf_open|intros src].
  apply touches_only_bind; [apply touches_only_lift|intros [w h]].
  apply touches_only_bind; [apply touches_only_create_banner; set_solver|intros _].
  apply touches_only_bind; [apply touches_only_pdf_open|intros bp].
  apply touches_only_bind; [apply touches_only_pdf_open|intros src'].
  apply touches_only_write. set_solver.
Qed.

Lemma never_removes_replace d orig bimg out :
  never_removes (replace_first_page_with_banner d orig bimg out).
Proof.
  unfold replace_first_page_with_banner.
  apply never_removes_bind; [apply never_removes_pdf_open|intros src].
  apply never_removes_bind; [apply never_removes_lift|intros [w h]].
  apply never_removes_bind; [apply never_removes_create_banner|intros _].
  apply never_removes_bind; [apply never_removes_pdf_open|intros bp].
  apply never_removes_bind; [apply never_removes_pdf_open|intros src'].
  apply never_removes_write.
Qed.

(** The bot-level frame: files outside [W] and [awaiting_banner] entries
    outside [C] are left as they were. *)
Definition bot_touches_only (W : list string) (C : list Z) {A} (m : BotM A) : Prop :=
  forall b r b', m b = (r, b') ->
    (forall p, p ∉ W -> bot_files b' !! p = bot_files b !! p) /\
    (forall c, c ∉ C -> awaiting_banner b' !! c = awaiting_banner b !! c).

Definition bot_never_removes {A} (m : BotM A) : Prop :=
  forall b r b' p, m b = (r, b') -> is_Some (bot_files b !! p) -> is_Some (bot_files b' !! p).

Lemma bot_touches_only_bind {A B} W C (m : BotM A) (k : A -> BotM B) :
  bot_touches_only W C m -> (forall a, bot_touches_only W C (k a)) ->
  bot_touches_only W C (bbind m k).
Proof.
  intros Hm Hk b r b' H. unfold bbind in H.
  destruct (m b) as [[a|e] b1] eqn:E.
  - destruct (Hm b _ b1 E) as [F1 A1]. destruct (Hk a b1 r b' H) as [F2 A2].
    split; intros; [rewrite F2, F1 | rewrite A2, A1]; auto.
  - injection H as _ <-. apply (Hm b _ b1 E).
Qed.

Lemma bot_never_removes_bind {A B} (m : BotM A) (k : A -> BotM B) :
  bot_never_removes m -> (forall a, bot_never_removes (k a)) -> bot_never_removes (bbind m k).
Proof.
  intros Hm Hk b r b' p H Hs. unfold bbind in H.
  destruct (m b) as [[a|e] b1] eqn:E.
  - apply (Hk a b1 r b' p H). apply (Hm b _ b1 p E Hs).
  - injection H as _ <-. apply (Hm b _ b1 p E Hs).
Qed.

Lemma bot_touches_only_try {A} W C (m : BotM A) (h : bot_error -> BotM A) :
  bot_touches_only W C m -> (forall e, bot_touches_only W C (h e)) ->
  bot_touches_only W C (try_except m h).
Proof.
  intros Hm Hh b r b' H. unfold try_except in H.
  destruct (m b) as [[a|e] b1] eqn:E.
  - injection H as _ <-. apply (Hm b _ b1 E).
  - destruct (Hm b _ b1 E) as [F1 A1]. destruct (Hh e b1 r b' H) as [F2 A2].
    split; intros; [rewrite F2, F1 | rewrite A2, A1]; auto.
Qed.

Lemma bot_never_removes_try {A} (m : BotM A) (h : bot_error -> BotM A) :
  bot_never_removes m -> (forall e, bot_never_removes (h e)) -> bot_never_removes (try_except m h).
Proof.
  intros Hm Hh b r b' p H Hs. unfold try_except in H.
  destruct (m b) as [[a|e] b1] eqn:E.
  - injection H as _ <-. apply (Hm b _ b1 p E Hs).
  - apply (Hh e b1 r b' p H). apply (Hm b _ b1 p E Hs).
Qed.

(** The steps that leave files and flags alone. *)
Definition quiet {A} (m : BotM A) : Prop :=
  forall b r b', m b = (r, b') ->
    bot_files b' = bot_files b /\ awaiting_banner b' = awaiting_banner b.

Lemma quiet_touches_only {A} W C (m : BotM A) : quiet m -> bot_touches_only W C m.
Proof. intros Hq b r b' H. destruct (Hq b r b' H) as [-> ->]. split; reflexivity. Qed.

Lemma quiet_never_removes {A} (m : BotM A) : quiet m -> bot_never_removes m.
Proof. intros Hq b r b' p H Hs. destruct (Hq b r b' H) as [-> _]. exact Hs. Qed.

Lemma quiet_bret {A} (a : A) : quiet (bret a).
Proof. intros b r b' H. injection H as _ <-. auto. Qed.
Lemma quiet_bthrow {A} (e : bot_error) : quiet (@bthrow A e).
Proof. intros b r b' H. injection H as _ <-. auto. Qed.
Lemma quiet_reply_text c t : quiet (reply_text c t).
Proof. intros b r b' H. injection H as _ <-. auto. Qed.
Lemma quiet_reply_failure c t e : quiet (reply_failure c t e).
Proof. intros b r b' H. injection H as _ <-. auto. Qed.
Lemma quiet_path_exists p : quiet (path_exists p).
Proof. intros b r b' H. injection H as _ <-. auto. Qed.
Lemma quiet_send_document c p t : quiet (send_document c p t).
Proof.
  intros b r b' H. unfold send_document in H.
  destruct (bot_files b !! p); injection H as _ <-; auto.
Qed.

Lemma bot_touches_only_download W C f p : p ∈ W -> bot_touches_only W C (download_media f p).
Proof.
  intros Hin b r b' H. injection H as _ <-. simpl. split; [|reflexivity].
  intros q Hq. apply lookup_insert_ne. intros ->. contradiction.
Qed.
Lemma bot_never_removes_download f p : bot_never_removes (download_media f p).
Proof.
  intros b r b' q H Hs. injection H as _ <-. simpl.
  destruct (decide (q = p)) as [->|Hne]; [rewrite lookup_insert_eq; eauto|].
  rewrite lookup_insert_ne by congruence. exact Hs.
Qed.

Lemma bot_touches_only_await W C c : c ∈ C -> bot_touches_only W C (await_banner c).
Proof.
  intros Hin b r b' H. injection H as _ <-. simpl. split; [reflexivity|].
  intros c' Hc. apply lookup_insert_ne. intros ->. contradiction.
Qed.
Lemma bot_touches_only_pop W C c : c ∈ C -> bot_touches_only W C (pop_awaiting c).
Proof.
  intros Hin b r b' H. injection H as _ <-. simpl. split; [reflexivity|].
  intros c' Hc. apply lookup_delete_ne. intros ->. contradiction.
Qed.
Lemma bot_never_removes_await c : bot_never_removes (await_banner c).
Proof. intros b r b' p H Hs. injection H as _ <-. exact Hs. Qed.
Lemma bot_never_removes_pop c : bot_never_removes (pop_awaiting c).
Proof. intros b r b' p H Hs. injection H as _ <-. exact Hs. Qed.

Lemma bot_touches_only_remove W C p : p ∈ W -> bot_touches_only W C (os_remove p).
Proof.
  intros Hin b r b' H. unfold os_remove in H.
  destruct (bot_files b !! p); injection H as _ <-; simpl; split; try reflexivity.
  intros q Hq. apply lookup_delete_ne. intros ->. contradiction.
Qed.

Lemma bot_touches_only_on_files {A} W C (m : M A) :
  touches_only W m -> bot_touches_only W C (on_files m).
Proof.
  intros Hm b r b' H. unfold on_files in H.
  destruct (m (bot_files b)) as [[a|e] s'] eqn:E; injection H as _ <-; simpl;
    (split; [intros p Hp; apply (Hm _ _ _ E p Hp) | reflexivity]).
Qed.
Lemma bot_never_removes_on_files {A} (m : M A) :
  never_removes m -> bot_never_removes (on_files m).
Proof.
  intros Hm b r b' p H Hs. unfold on_files in H.
  destruct (m (bot_files b)) as [[a|e] s'] eqn:E; injection H as _ <-; simpl;
    apply (Hm _ _ _ p E Hs).
Qed.

Lemma touches_only_mono {A} W W' (m : M A) :
  W ⊆ W' -> touches_only W m -> touches_only W' m.
Proof. intros Hs Hm s r s' H p Hp. apply (Hm s r s' H). set_solver. Qed.

Ltac bot_frame :=
  repeat match goal with
  | |- bot_touches_only _ _ (bbind _ _) => apply bot_touches_only_bind; [|intros ?]
  | |- bot_touches_only _ _ (try_except _ _) => apply bot_touches_only_try; [|intros ?]
  | |- bot_touches_only _ _ (download_media _ _) => apply bot_touches_only_download; set_solver
  | |- bot_touches_only _ _ (await_banner _) => apply bot_touches_only_await; set_solver
  | |- bot_touches_only _ _ (pop_awaiting _) => apply bot_touches_only_pop; set_solver
  | |- bot_touches_only _ _ (os_remove _) => apply bot_touches_only_remove; set_solver
  | |- bot_touches_only _ _ (if ?x then _ else _) => destruct x
  | |- bot_touches_only _ _ _ =>
      apply quiet_touches_only;
      first [apply quiet_bret | apply quiet_bthrow | apply quiet_reply_text
            | apply quiet_reply_failure | apply quiet_path_exists | apply quiet_send_document]
  end.

Ltac bot_keep :=
  repeat match goal with
  | |- bot_never_removes (bbind _ _) => apply bot_never_removes_bind; [|intros ?]
  | |- bot_never_removes (try_except _ _) => apply bot_never_removes_try; [|intros ?]
  | |- bot_never_removes (download_media _ _) => apply bot_never_removes_download
  | |- bot_never_removes (await_banner _) => apply bot_never_removes_await
  | |- bot_never_removes (pop_awaiting _) => apply bot_never_removes_pop
  | |- bot_never_removes (on_files _) => apply bot_never_removes_on_files
  | |- never_removes (image_open _) => intros ? ? ? ? Hio ?; unfold image_open in Hio;
                                         repeat case_match; injection Hio as _ <-; assumption
  | |- never_removes (write_file _ _) => apply never_removes_write
  | |- never_removes (replace_first_page_with_banner _ _ _ _) => apply never_removes_replace
  | |- bot_never_removes (if ?x then _ else _) => destruct x
  | |- bot_never_removes _ =>
      apply quiet_never_removes;
      first [apply quiet_bret | apply quiet_bthrow | apply quiet_reply_text
            | apply quiet_reply_failure | apply quiet_path_exists | apply quiet_send_document]
  end.

Section HandlerFrames.

Variable d : string.

Lemma receive_image_frame (m : message) :
  bot_touches_only [banner_download_path d (msg_id m); banner_path_for_chat d (msg_chat m)]
    [msg_chat m] (receive_image d m).
Proof.
  intros b r b' H. unfold receive_image in H.
  destruct (awaiting_banner b !! msg_chat m) as [[|]|];
    [| injection H as _ <-; split; reflexivity | injection H as _ <-; split; reflexivity].
  revert b r b' H. fold (bot_touches_only [banner_download_path d (msg_id m); banner_path_for_chat d (msg_chat m)]
    [msg_chat m] (try_except (receive_image_body d m)
          (fun e => let! _ := pop_awaiting (msg_chat m) in reply_failure (msg_chat m) "Failed to save banner: " e))).
  unfold receive_image_body. cbv zeta.
  destruct (msg_photo m); [|destruct (msg_document m) as [[[mt|] dc]|]; simpl; [destruct (starts_with_image mt)| |]];
  bot_frame;
  first [ apply bot_touches_only_on_files;
          first [ intros ? ? ? Hio ? _; unfold image_open in Hio; repeat case_match;
                  injection Hio as _ <-; reflexivity
                | apply touches_only_write; set_solver ]
        | idtac ].
Qed.

Lemma receive_image_keeps (m : message) : bot_never_removes (receive_image d m).
Proof.
  intros b r b' p H. unfold receive_image in H.
  destruct (awaiting_banner b !! msg_chat m) as [[|]|];
    [| injection H as _ <-; tauto | injection H as _ <-; tauto].
  revert b r b' p H. fold (bot_never_removes (try_except (receive_image_body d m)
          (fun e => let! _ := pop_awaiting (msg_chat m) in reply_failure (msg_chat m) "Failed to save banner: " e))).
  unfold receive_image_body. cbv zeta.
  destruct (msg_photo m); [|destruct (msg_document m) as [[[mt|] dc]|]; simpl; [destruct (starts_with_image mt)| |]];
  bot_keep.
Qed.

Lemma handle_pdf_message_frame (m : message) :
  bot_touches_only [orig_file d (msg_id m); out_file d (msg_id m);
                    banner_pdf_tmp d (banner_path_for_chat d (msg_chat m))] []
    (handle_pdf_message d m).
Proof.
  unfold handle_pdf_message. cbv zeta. bot_frame.
  destruct (msg_document m); bot_frame.
  apply bot_touches_only_on_files.
  eapply touches_only_mono; [|apply touches_only_replace]. set_solver.
Qed.

Lemma handle_pdf_message_keeps (m : message) : bot_never_removes (handle_pdf_message d m).
Proof.
  unfold handle_pdf_message. cbv zeta. bot_keep.
  destruct (msg_document m); bot_keep.
Qed.

End HandlerFrames.

(** * Further properties of the bot *)

(** X1: different chats get different banner files
    ([banners/<chat_id>/banner.png]). *)
Theorem banner_path_for_chat_distinct (d : string) (c1 c2 : Z) :
  c1 <> c2 -> banner_path_for_chat d c1 <> banner_path_for_chat d c2.
Proof. intros Hc E. apply Hc, (banner_path_for_chat_inj d), E. Qed.

Lemma banner_path_for_chat_distinct_witness :
  (10 <> -20)%Z /\ banner_path_for_chat "." 10 <> banner_path_for_chat "." (-20).
Proof. split; [lia|]. apply banner_path_for_chat_distinct. lia. Defined.

(** X2: unless the chat is awaiting a banner, [receive_image] does
    nothing: no download, no file, no reply. *)
Theorem receive_image_ignored_unless_awaiting (d : string) (m : message) (b : bot) :
  awaiting_banner b !! msg_chat m <> Some true -> receive_image d m b = (Done tt, b).
Proof.
  intros H. unfold receive_image.
  destruct (awaiting_banner b !! msg_chat m) as [[|]|]; [contradiction | reflexivity | reflexivity].
Qed.

Lemma receive_image_ignored_unless_awaiting_witness :
  let b := {| awaiting_banner := ∅; bot_files := ∅; outbox := [] |} in
  let m := Message 10 1 (Some (ImageFile {| img_mode := "RGB"; img_size_w := 4; img_size_h := 3 |})) None None in
  awaiting_banner b !! msg_chat m <> Some true /\ receive_image "." m b = (Done tt, b).
Proof.
  intros b m. split; [discriminate|].
  apply receive_image_ignored_unless_awaiting. discriminate.
Defined.

Definition setbanner_reply : string :=
  "Okay — send the banner image now as a photo or image file. I will save it for this chat.".

(** X3: after [/setbanner], a photo that decodes to an image is saved,
    converted to RGBA, as the chat's banner; the chat stops awaiting a
    banner and the two replies are the prompt and "Banner saved". *)
Theorem setbanner_then_photo_saves_banner (d : string) (m1 m2 : message) (img : image) (b : bot) :
  msg_chat m2 = msg_chat m1 -> msg_photo m2 = Some (ImageFile img) ->
  let b1 := (setbanner_cmd m1 b).2 in
  receive_image d m2 b1 =
    (Done tt,
     {| awaiting_banner := delete (msg_chat m1) (<[msg_chat m1 := true]> (awaiting_banner b));
        bot_files := <[banner_path_for_chat d (msg_chat m1) := ImageFile (convert img "RGBA")]>
                       (<[banner_download_path d (msg_id m2) := ImageFile img]> (bot_files b));
        outbox := outbox b ++ [ReplyText (msg_chat m1) setbanner_reply;
                               ReplyText (msg_chat m1) "Banner saved for this chat."] |}) /\
  awaiting_banner (receive_image d m2 b1).2 !! msg_chat m1 = None.
Proof.
  intros Hc Hp b1.
  assert (E : receive_image d m2 b1 =
    (Done tt,
     {| awaiting_banner := delete (msg_chat m1) (<[msg_chat m1 := true]> (awaiting_banner b));
        bot_files := <[banner_path_for_chat d (msg_chat m1) := ImageFile (convert img "RGBA")]>
                       (<[banner_download_path d (msg_id m2) := ImageFile img]> (bot_files b));
        outbox := outbox b ++ [ReplyText (msg_chat m1) setbanner_reply;
                               ReplyText (msg_chat m1) "Banner saved for this chat."] |})).
  { unfold b1, receive_image. simpl. rewrite Hc, lookup_insert_eq.
    unfold try_except, receive_image_body. rewrite Hc, Hp. simpl.
    unfold bbind, download_media, on_files, set_files, send, set_awaiting. simpl.
    unfold image_open. rewrite lookup_insert_eq. simpl.
    unfold send, set_awaiting. simpl. rewrite <- app_assoc. reflexivity. }
  split; [exact E|]. rewrite E. simpl. apply lookup_delete_eq.
Qed.

Lemma setbanner_then_photo_saves_banner_witness :
  let b := {| awaiting_banner := ∅; bot_files := ∅; outbox := [] |} in
  let img := {| img_mode := "RGB"; img_size_w := 4; img_size_h := 3 |} in
  let m1 := Message 10 1 None None None in
  let m2 := Message 10 2 (Some (ImageFile img)) None None in
  msg_chat m2 = msg_chat m1 /\ msg_photo m2 = Some (ImageFile img) /\
  awaiting_banner (receive_image "." m2 (setbanner_cmd m1 b).2).2 !! msg_chat m1 = None.
Proof.
  intros b img m1 m2. split; [reflexivity|]. split; [reflexivity|].
  apply (setbanner_then_photo_saves_banner "." m1 m2 img b); reflexivity.
Defined.

(** X4: while a chat awaits a banner, a document whose MIME type is not
    [image/...] (a PDF, say) is refused: nothing is downloaded, the chat
    keeps awaiting, and the only effect is the reply asking for an image. *)
Theorem receive_image_rejects_non_image (d : string) (m : message) (b : bot)
    (dc : document) (mt : string) :
  awaiting_banner b !! msg_chat m = Some true ->
  msg_photo m = None -> msg_document m = Some dc ->
  mime_type dc = Some mt -> starts_with_image mt = false ->
  receive_image d m b = (Done tt, send b (ReplyText (msg_chat m) "Please send a PNG or JPG image.")).
Proof.
  intros Ha Hp Hd Hm Hs. unfold receive_image. rewrite Ha.
  unfold try_except, receive_image_body. rewrite Hp, Hd, Hm, Hs. reflexivity.
Qed.

Lemma receive_image_rejects_non_image_witness :
  let b := {| awaiting_banner := <[10%Z := true]> ∅; bot_files := ∅; outbox := [] |} in
  let dc := {| mime_type := Some "application/pdf"; doc_content := PdfFile sample_src |} in
  let m := Message 10 2 None (Some dc) None in
  awaiting_banner b !! msg_chat m = Some true /\ starts_with_image "application/pdf" = false /\
  receive_image "." m b = (Done tt, send b (ReplyText 10 "Please send a PNG or JPG image.")).
Proof.
  intros b dc m. split; [reflexivity|]. split; [reflexivity|].
  apply (receive_image_rejects_non_image "." m b dc "application/pdf"); reflexivity.
Defined.

(** X5: while a chat awaits a banner, a photo that does not decode as an
    image leaves the chat's previous banner file untouched; the chat stops
    awaiting and gets a "Failed to save banner" reply. *)
Theorem receive_image_undecodable_keeps_banner (d : string) (m : message) (b : bot) (f : file) :
  awaiting_banner b !! msg_chat m = Some true -> msg_photo m = Some f ->
  (forall i, f <> ImageFile i) ->
  receive_image d m b =
    (Done tt,
     {| awaiting_banner := delete (msg_chat m) (awaiting_banner b);
        bot_files := <[banner_download_path d (msg_id m) := f]> (bot_files b);
        outbox := outbox b ++ [ReplyFailure (msg_chat m) "Failed to save banner: "
                     (PyErr (UnidentifiedImageError (banner_download_path d (msg_id m))))] |}) /\
  bot_files (receive_image d m b).2 !! banner_path_for_chat d (msg_chat m)
    = bot_files b !! banner_path_for_chat d (msg_chat m).
Proof.
  intros Ha Hp Hf.
  assert (E : receive_image d m b =
    (Done tt,
     {| awaiting_banner := delete (msg_chat m) (awaiting_banner b);
        bot_files := <[banner_download_path d (msg_id m) := f]> (bot_files b);
        outbox := outbox b ++ [ReplyFailure (msg_chat m) "Failed to save banner: "
                     (PyErr (UnidentifiedImageError (banner_download_path d (msg_id m))))] |})).
  { unfold receive_image. rewrite Ha.
    unfold try_except, receive_image_body. rewrite Hp.
    unfold bbind, download_media, on_files, set_files, send, set_awaiting, image_open. simpl.
    rewrite lookup_insert_eq.
    destruct f as [pg|i|bs]; [reflexivity | exfalso; exact (Hf i eq_refl) | reflexivity]. }
  split; [exact E|]. rewrite E. simpl.
  apply lookup_insert_ne. apply download_path_ne_banner.
Qed.

Lemma receive_image_undecodable_keeps_banner_witness :
  let b := {| awaiting_banner := <[10%Z := true]> ∅; bot_files := ∅; outbox := [] |} in
  let m := Message 10 2 (Some (OtherFile [Byte.x00])) None None in
  awaiting_banner b !! msg_chat m = Some true /\
  bot_files (receive_image "." m b).2 !! banner_path_for_chat "." 10 = None.
Proof.
  intros b m. split; [reflexivity|].
  destruct (receive_image_undecodable_keeps_banner "." m b (OtherFile [Byte.x00])) as [_ H];
    [reflexivity | reflexivity | discriminate |].
  exact H.
Defined.

(** X6: [/removebanner] deletes the chat's banner file if there is one and
    touches no other file; it answers "Banner removed" or "No banner was
    set" according to whether the file existed. *)
Theorem removebanner_removes_only_own_banner (d : string) (m : message) (b : bot) :
  let path := banner_path_for_chat d (msg_chat m) in
  removebanner_cmd d m b =
    (Done tt,
     {| awaiting_banner := awaiting_banner b;
        bot_files := delete path (bot_files b);
        outbox := outbox b ++
          [ReplyText (msg_chat m)
             (match bot_files b !! path with
              | Some _ => "Banner removed for this chat."
              | None => "No banner was set for this chat."
              end)] |}) /\
  bot_files (removebanner_cmd d m b).2 !! path = None /\
  (forall p, p <> path -> bot_files (removebanner_cmd d m b).2 !! p = bot_files b !! p).
Proof.
  intros path.
  assert (E : removebanner_cmd d m b =
    (Done tt,
     {| awaiting_banner := awaiting_banner b;
        bot_files := delete path (bot_files b);
        outbox := outbox b ++
          [ReplyText (msg_chat m)
             (match bot_files b !! path with
              | Some _ => "Banner removed for this chat."
              | None => "No banner was set for this chat."
              end)] |})).
  { unfold removebanner_cmd, bbind, path_exists. fold path.
    destruct (bot_files b !! path) as [f|] eqn:Ef; simpl.
    - unfold os_remove, set_files, send. rewrite Ef. reflexivity.
    - unfold send. rewrite delete_id by exact Ef. destruct b; reflexivity. }
  split; [exact E|]. rewrite E. simpl. split; [apply lookup_delete_eq|].
  intros p Hp. apply lookup_delete_ne. congruence.
Qed.

(** X7: after [/removebanner], [/status] in the same chat reports that no
    banner is set. *)
Theorem status_after_removebanner (d : string) (m1 m2 : message) (b : bot) :
  msg_chat m2 = msg_chat m1 ->
  let b1 := (removebanner_cmd d m1 b).2 in
  status_cmd d m2 b1 =
    (Done tt, send b1 (ReplyText (msg_chat m1) "No banner set. Use /setbanner to upload one.")).
Proof.
  intros Hc b1. unfold status_cmd, bbind, path_exists. rewrite Hc.
  destruct (removebanner_removes_only_own_banner d m1 b) as [E _].
  assert (H : bot_files b1 !! banner_path_for_chat d (msg_chat m1) = None).
  { unfold b1. rewrite E. apply lookup_delete_eq. }
  rewrite H. reflexivity.
Qed.

Lemma status_after_removebanner_witness :
  let b := {| awaiting_banner := ∅;
              bot_files := <[banner_path_for_chat "." 10 := ImageFile {| img_mode := "RGBA"; img_size_w := 4; img_size_h := 3 |}]> ∅;
              outbox := [] |} in
  let m := Message 10 1 None None None in
  msg_chat m = msg_chat m /\
  status_cmd "." m (removebanner_cmd "." m b).2 =
    (Done tt, send (removebanner_cmd "." m b).2 (ReplyText 10 "No banner set. Use /setbanner to upload one.")).
Proof.
  intros b m. split; [reflexivity|].
  apply (status_after_removebanner "." m m b). reflexivity.
Defined.

(** X8: a PDF sent to a chat without a banner only gets the "No banner
    set" reply: nothing is downloaded or written. *)
Theorem handle_pdf_without_banner (d : string) (m : message) (b : bot) :
  bot_files b !! banner_path_for_chat d (msg_chat m) = None ->
  handle_pdf_message d m b =
    (Done tt, send b (ReplyText (msg_chat m)
                        "No banner set for this chat. Use /setbanner to upload a banner first.")).
Proof.
  intros H. unfold handle_pdf_message, bbind, path_exists. rewrite H. reflexivity.
Qed.

Lemma handle_pdf_without_banner_witness :
  let b := {| awaiting_banner := ∅; bot_files := ∅; outbox := [] |} in
  let m := Message 10 2 None (Some {| mime_type := Some "application/pdf"; doc_content := PdfFile sample_src |}) None in
  bot_files b !! banner_path_for_chat "." 10 = None /\
  handle_pdf_message "." m b =
    (Done tt, send b (ReplyText 10 "No banner set for this chat. Use /setbanner to upload a banner first.")).
Proof.
  intros b m. split; [reflexivity|].
  apply (handle_pdf_without_banner "." m b). reflexivity.
Defined.

(** X9: with a banner set, a message without a document (e.g. [/process]
    replying to a text message) gets a "Failed to process PDF" reply
    and changes no file. *)
Theorem handle_pdf_without_document (d : string) (m : message) (b : bot) :
  is_Some (bot_files b !! banner_path_for_chat d (msg_chat m)) -> msg_document m = None ->
  handle_pdf_message d m b =
    (Done tt, send b (ReplyFailure (msg_chat m) "Failed to process PDF: "
                        (AttributeError "'NoneType' object has no attribute 'file_id'"))).
Proof.
  intros [f Hf] Hd. unfold handle_pdf_message, bbind, path_exists, try_except.
  rewrite Hf, Hd. reflexivity.
Qed.

Lemma handle_pdf_without_document_witness :
  let b := {| awaiting_banner := ∅;
              bot_files := <[banner_path_for_chat "." 10 := ImageFile {| img_mode := "RGBA"; img_size_w := 4; img_size_h := 3 |}]> ∅;
              outbox := [] |} in
  let m := Message 10 2 None None None in
  is_Some (bot_files b !! banner_path_for_chat "." 10) /\
  handle_pdf_message "." m b =
    (Done tt, send b (ReplyFailure 10 "Failed to process PDF: "
                        (AttributeError "'NoneType' object has no attribute 'file_id'"))).
Proof.
  intros b m. split; [eexists; reflexivity|].
  apply (handle_pdf_without_document "." m b); [eexists; reflexivity | reflexivity].
Defined.

(** X10: with a banner set, a zero-page PDF is downloaded to
    [TMP_DIR/<id>_orig.pdf] and answered with "Failed to process PDF" and
    the "PDF has no pages" error; nothing else is written or sent. *)
Theorem handle_pdf_empty_document (d : string) (m : message) (b : bot) (dc : document) :
  is_Some (bot_files b !! banner_path_for_chat d (msg_chat m)) ->
  msg_document m = Some dc -> doc_content dc = PdfFile [] ->
  handle_pdf_message d m b =
    (Done tt,
     {| awaiting_banner := awaiting_banner b;
        bot_files := <[orig_file d (msg_id m) := PdfFile []]> (bot_files b);
        outbox := outbox b ++ [ReplyFailure (msg_chat m) "Failed to process PDF: "
                                 (PyErr (ValueError "PDF has no pages"))] |}).
Proof.
  intros [f Hf] Hd Hc. unfold handle_pdf_message, bbind, path_exists, try_except.
  rewrite Hf, Hd. simpl. unfold bbind, download_media, on_files, set_files. simpl.
  rewrite Hc.
  unfold replace_first_page_with_banner, bind at 1, pdf_open at 1.
  rewrite lookup_insert_eq. reflexivity.
Qed.

Lemma handle_pdf_empty_document_witness :
  let b := {| awaiting_banner := ∅;
              bot_files := <[banner_path_for_chat "." 10 := ImageFile {| img_mode := "RGBA"; img_size_w := 4; img_size_h := 3 |}]> ∅;
              outbox := [] |} in
  let dc := {| mime_type := Some "application/pdf"; doc_content := PdfFile [] |} in
  let m := Message 10 2 None (Some dc) None in
  is_Some (bot_files b !! banner_path_for_chat "." 10) /\
  outbox (handle_pdf_message "." m b).2 =
    [ReplyFailure 10 "Failed to process PDF: " (PyErr (ValueError "PDF has no pages"))].
Proof.
  intros b dc m. split; [eexists; reflexivity|].
  rewrite (handle_pdf_empty_document "." m b dc); [reflexivity | eexists; reflexivity | reflexivity | reflexivity].
Defined.

(** X11: with a banner set, a PDF document is never answered with the
    edited PDF: the document is downloaded to [TMP_DIR/<id>_orig.pdf], the
    splice raises, and the chat gets exactly one "Failed to process PDF"
    reply; no other file is written. *)
Theorem handle_pdf_never_sends_document (d : string) (m : message) (b : bot) (dc : document) :
  is_Some (bot_files b !! banner_path_for_chat d (msg_chat m)) ->
  msg_document m = Some dc ->
  exists e,
    handle_pdf_message d m b =
      (Done tt,
       {| awaiting_banner := awaiting_banner b;
          bot_files := <[orig_file d (msg_id m) := doc_content dc]> (bot_files b);
          outbox := outbox b ++ [ReplyFailure (msg_chat m) "Failed to process PDF: " (PyErr e)] |}).
Proof.
  intros [f Hf] Hd. unfold handle_pdf_message, bbind, path_exists, try_except.
  rewrite Hf, Hd. simpl. unfold bbind, download_media, on_files, set_files. simpl.
  destruct (replace_raises d (orig_file d (msg_id m)) (banner_path_for_chat d (msg_chat m))
              (out_file d (msg_id m)) (<[orig_file d (msg_id m) := doc_content dc]> (bot_files b)))
    as [e E].
  rewrite E. exists e. reflexivity.
Qed.

Lemma handle_pdf_never_sends_document_witness :
  let b := {| awaiting_banner := ∅;
              bot_files := <[banner_path_for_chat "." 10 := ImageFile {| img_mode := "RGBA"; img_size_w := 1000; img_size_h := 500 |}]> ∅;
              outbox := [] |} in
  let dc := {| mime_type := Some "application/pdf"; doc_content := PdfFile sample_src |} in
  let m := Message 10 2 None (Some dc) None in
  is_Some (bot_files b !! banner_path_for_chat "." 10) /\
  outbox (handle_pdf_message "." m b).2 =
    [ReplyFailure 10 "Failed to process PDF: "
       (PyErr (TypeError "expected str, bytes or os.PathLike object, not BytesIO"))] /\
  exists e,
    handle_pdf_message "." m b =
      (Done tt,
       {| awaiting_banner := awaiting_banner b;
          bot_files := <[orig_file "." 2 := PdfFile sample_src]> (bot_files b);
          outbox := outbox b ++ [ReplyFailure 10 "Failed to process PDF: " (PyErr e)] |}).
Proof.
  intros b dc m. split; [eexists; reflexivity|]. split; [vm_compute; reflexivity|].
  apply (handle_pdf_never_sends_document "." m b dc); [eexists; reflexivity | reflexivity].
Defined.

(** X12: while a chat awaits a banner, a document without a MIME type
    makes [mime_type.startswith] fail: the chat stops awaiting and gets a
    "Failed to save banner" reply, and no file is written. *)
Theorem receive_image_missing_mime_type (d : string) (m : message) (b : bot) (dc : document) :
  awaiting_banner b !! msg_chat m = Some true ->
  msg_photo m = None -> msg_document m = Some dc -> mime_type dc = None ->
  receive_image d m b =
    (Done tt,
     {| awaiting_banner := delete (msg_chat m) (awaiting_banner b);
        bot_files := bot_files b;
        outbox := outbox b ++ [ReplyFailure (msg_chat m) "Failed to save banner: "
                                 (AttributeError "'NoneType' object has no attribute 'startswith'")] |}).
Proof.
  intros Ha Hp Hd Hm. unfold receive_image. rewrite Ha.
  unfold try_except, receive_image_body. rewrite Hp, Hd, Hm. reflexivity.
Qed.

Lemma receive_image_missing_mime_type_witness :
  let b := {| awaiting_banner := <[10%Z := true]> ∅; bot_files := ∅; outbox := [] |} in
  let dc := {| mime_type := None; doc_content := OtherFile [] |} in
  let m := Message 10 2 None (Some dc) None in
  awaiting_banner b !! msg_chat m = Some true /\
  outbox (receive_image "." m b).2 =
    [ReplyFailure 10 "Failed to save banner: "
       (AttributeError "'NoneType' object has no attribute 'startswith'")].
Proof.
  intros b dc m. split; [reflexivity|].
  rewrite (receive_image_missing_mime_type "." m b dc); reflexivity.
Defined.

(** A handler confined to the files [W] and the flags of the chats [C]
    leaves alone the banner and the flag of a chat outside them. *)
Lemma frame_keeps_other_chat (d : string) (W : list string) (C : list Z) {A} (h : BotM A)
    (b : bot) (c' : Z) :
  bot_touches_only W C h -> banner_path_for_chat d c' ∉ W -> c' ∉ C ->
  bot_files (h b).2 !! banner_path_for_chat d c' = bot_files b !! banner_path_for_chat d c' /\
  awaiting_banner (h b).2 !! c' = awaiting_banner b !! c'.
Proof.
  intros Hf HW HC. destruct (h b) as [r b'] eqn:E. simpl.
  destruct (Hf b r b' E) as [F G]. auto.
Qed.

(** X13: apart from [/removebanner], no handler ever deletes a file: every
    file present before a message is handled is still present after it,
    whatever the handler raises or catches. *)
Theorem handlers_never_remove_files (d : string) (m : message) :
  bot_never_removes (start_cmd m) /\ bot_never_removes (setbanner_cmd m) /\
  bot_never_removes (status_cmd d m) /\ bot_never_removes (receive_image d m) /\
  bot_never_removes (process_cmd d m) /\ bot_never_removes (handle_pdf_message d m).
Proof.
  split; [unfold start_cmd; bot_keep|].
  split; [unfold setbanner_cmd; cbv zeta; bot_keep|].
  split; [unfold status_cmd; cbv zeta; bot_keep|].
  split; [apply receive_image_keeps|].
  split; [unfold process_cmd; destruct (msg_reply_to m); [apply handle_pdf_message_keeps | bot_keep]|].
  apply handle_pdf_message_keeps.
Qed.

(** X14: chats are isolated: handling a message of one chat (with
    [/process] replying to a message of the same chat) never changes
    another chat's banner file or its awaiting-banner flag. *)
Theorem handlers_isolate_chats (d : string) (h : message -> BotM unit) (m : message)
    (b : bot) (c' : Z) :
  h ∈ handlers d -> c' <> msg_chat m ->
  (forall r, msg_reply_to m = Some r -> msg_chat r = msg_chat m) ->
  bot_files (h m b).2 !! banner_path_for_chat d c' = bot_files b !! banner_path_for_chat d c' /\
  awaiting_banner (h m b).2 !! c' = awaiting_banner b !! c'.
Proof.
  intros Hh Hc Hr.
  assert (Hb : forall c, c <> c' -> banner_path_for_chat d c' <> banner_path_for_chat d c).
  { intros c Hne E. apply Hne. symmetry. exact (banner_path_for_chat_inj d c' c E). }
  unfold handlers in Hh.
  repeat (apply elem_of_cons in Hh; destruct Hh as [->|Hh]);
    [| | | | | | | apply elem_of_nil in Hh; contradiction].
  - apply (frame_keeps_other_chat d [] []); [|set_solver..].
    unfold start_cmd. bot_frame.
  - apply (frame_keeps_other_chat d [] [msg_chat m]); [|set_solver|set_solver].
    unfold setbanner_cmd. cbv zeta. bot_frame.
  - apply (frame_keeps_other_chat d [banner_path_for_chat d (msg_chat m)] []);
      [|specialize (Hb (msg_chat m)); set_solver|set_solver].
    unfold removebanner_cmd. cbv zeta. bot_frame.
  - apply (frame_keeps_other_chat d [] []); [|set_solver..].
    unfold status_cmd. cbv zeta. bot_frame.
  - apply (frame_keeps_other_chat d _ _ _ b c' (receive_image_frame d m)); [|set_solver].
    pose proof (download_path_ne_banner d (msg_id m) c').
    specialize (Hb (msg_chat m) (not_eq_sym Hc)). set_solver.
  - unfold process_cmd. destruct (msg_reply_to m) as [r|] eqn:Er.
    + rewrite <- (Hr r eq_refl) in Hc.
      apply (frame_keeps_other_chat d _ _ _ b c' (handle_pdf_message_frame d r)); [|set_solver].
      pose proof (orig_file_ne_banner d (msg_id r) c').
      pose proof (out_file_ne_banner d (msg_id r) c').
      pose proof (banner_pdf_tmp_ne_banner d (banner_path_for_chat d (msg_chat r)) c').
      set_solver.
    + apply (frame_keeps_other_chat d [] []); [|set_solver..]. bot_frame.
  - apply (frame_keeps_other_chat d _ _ _ b c' (handle_pdf_message_frame d m)); [|set_solver].
    pose proof (orig_file_ne_banner d (msg_id m) c').
    pose proof (out_file_ne_banner d (msg_id m) c').
    pose proof (banner_pdf_tmp_ne_banner d (banner_path_for_chat d (msg_chat m)) c').
    set_solver.
Qed.

Lemma handlers_isolate_chats_witness :
  let b := {| awaiting_banner := <[11%Z := true]> ∅;
              bot_files := <[banner_path_for_chat "." 11 := ImageFile {| img_mode := "RGBA"; img_size_w := 4; img_size_h := 3 |}]> ∅;
              outbox := [] |} in
  let m := Message 10 2 None None None in
  removebanner_cmd "." ∈ handlers "." /\ (11 <> msg_chat m)%Z /\
  bot_files (removebanner_cmd "." m b).2 !! banner_path_for_chat "." 11 =
    bot_files b !! banner_path_for_chat "." 11 /\
  awaiting_banner (removebanner_cmd "." m b).2 !! 11%Z = awaiting_banner b !! 11%Z.
Proof.
  intros b m. split; [unfold handlers; set_solver|]. split; [discriminate|].
  apply (handlers_isolate_chats "." (removebanner_cmd ".") m b 11).
  - unfold handlers. set_solver.
  - discriminate.
  - intros r Hr. discriminate Hr.
Defined.
